(** * ProtocolCommand: versioned commands of the off-chain protocol

    A shallow embedding of [offchainapi/protocol_command.py] and the
    properties of its origin attestation, dependency sets and dual-mode
    (NET / STORE) JSON serialization. *)

From Stdlib Require Import ZArith.
From stdpp Require Import base option list strings gmap.

Local Open Scope Z_scope.
Local Open Scope string_scope.
Local Open Scope list_scope.

(** ** Python values, exceptions and results *)

(** A version map as a Python [dict] from object identifiers ([str]) to
    version numbers ([int]).  Python dictionaries iterate in insertion
    order and [items()] exposes that order, so the dictionary is kept as the
    sequence of its items; its keys are pairwise distinct. *)
Abbreviation vdict := (list (string * Z)).

(** The values found in a JSON data dictionary.  Object identifiers are
    strings and version numbers integers, so the one kind of dictionary
    among the values is a version map; every other constructor is a value
    without an [items] attribute. *)
#[warnings="-register-all"]
Inductive pyval : Type :=
  | PyNone
  | PyBool (b : bool)
  | PyInt (n : Z)
  | PyStr (s : string)
  | PyList (l : list pyval)
  | PyDict (d : vdict).

(** The exceptions this module can raise.  [CodecError] stands for whatever
    [LibraAddress.from_encoded_str] raises on a string it cannot decode. *)
Inductive exn : Type :=
  | AssertionError
  | NotImplementedError
  | KeyError (key : string)
  | AttributeError (attr : string)
  | CodecError.

Inductive res (A : Type) : Type :=
  | Ok (a : A)
  | Raise (e : exn).
Arguments Ok {A} a.
Arguments Raise {A} e.

(** [utils.JSONFlag] *)
Inductive JSONFlag : Type := NET | STORE.

Global Instance JSONFlag_eq_dec : EqDecision JSONFlag.
Proof. solve_decision. Defined.

(** The error kinds of the specification, and the kind each Python
    exception of this module is reported as. *)
Inductive error_kind : Type :=
  | StateConflict
  | MalformedData
  | UnknownVersion
  | NotImplemented.

Definition spec_error_kind (e : exn) : error_kind :=
  match e with
  | AssertionError => StateConflict
  | NotImplementedError => NotImplemented
  | KeyError _ | AttributeError _ | CodecError => MalformedData
  end.

(** ** Insertion-ordered dictionaries *)

Module PyDict.

(** [d[k] = v]: an existing key keeps its position and takes the new
    value, a new key goes last. *)
Fixpoint setitem (k : string) (v : Z) (d : vdict) : vdict :=
  match d with
  | [] => [(k, v)]
  | (k', v') :: d' =>
      if decide (k' = k) then (k', v) :: d' else (k', v') :: setitem k v d'
  end.

(** [d.get(k)] *)
Fixpoint get (k : string) (d : vdict) : option Z :=
  match d with
  | [] => None
  | (k', v') :: d' => if decide (k' = k) then Some v' else get k d'
  end.

(** [dict(pairs)]: the pairs are inserted from left to right. *)
Definition insert_pair (d : vdict) (kv : string * Z) : vdict :=
  setitem kv.1 kv.2 d.

Definition dict (pairs : list (string * Z)) : vdict :=
  foldl insert_pair [] pairs.

(** [d.items()] *)
Definition items (d : vdict) : list (string * Z) := d.

(** [d[k]] on a JSON data dictionary. *)
Definition getitem (data : gmap string pyval) (k : string) : res pyval :=
  match data !! k with
  | Some v => Ok v
  | None => Raise (KeyError k)
  end.

(** [k in d] on a JSON data dictionary. *)
Definition contains (data : gmap string pyval) (k : string) : bool :=
  bool_decide (is_Some (data !! k)).

(** [d.update(other)]: the entries of [other] win. *)
Definition update (d other : gmap string pyval) : gmap string pyval :=
  other ∪ d.

(** The entry of [k] in a JSON data dictionary is itself a dictionary. *)
Definition has_mapping (data : gmap string pyval) (k : string) : bool :=
  match data !! k with
  | Some (PyDict _) => true
  | _ => false
  end.

(** [v.items()]: only a dictionary has the attribute. *)
Definition items_of (v : pyval) : res (list (string * Z)) :=
  match v with
  | PyDict d => Ok (items d)
  | _ => Raise (AttributeError "items")
  end.

End PyDict.

(** ** Methods as computations on the receiving object

    A method runs on the object [self] of type [S]; it returns a value or
    raises, and leaves the object in a possibly updated state.  An exception
    does not undo the assignments made before it. *)

Definition M (S A : Type) : Type := S → res A * S.

Global Instance M_ret {S} : MRet (M S) := λ A a s, (Ok a, s).

Global Instance M_bind {S} : MBind (M S) := λ A B f m s,
  match m s with
  | (Ok a, s') => f a s'
  | (Raise e, s') => (Raise e, s')
  end.

Definition raise {S A} (e : exn) : M S A := λ s, (Raise e, s).

(** Read the object. *)
Definition this {S} : M S S := λ s, (Ok s, s).

(** [self.field = v] *)
Definition assign {S} (f : S → S) : M S unit := λ s, (Ok tt, f s).

(** A computation that does not touch the object. *)
Definition lift {S A} (r : res A) : M S A := λ s, (r, s).

(** [assert b] *)
Definition py_assert {S} (b : bool) : M S unit :=
  if b then mret tt else raise AssertionError.

(** The value a call returns, and the object it leaves. *)
Definition outcome {S A} (m : M S A) (s : S) : res A := (m s).1.
Definition after {S A} (m : M S A) (s : S) : S := (m s).2.

(** The call raises an exception that is reported as error kind [k]. *)
Definition raises_kind {S A} (m : M S A) (s : S) (k : error_kind) : Prop :=
  ∃ e, outcome m s = Raise e ∧ spec_error_kind e = k.

(** The same for the result of a classmethod. *)
Definition fails_kind {A} (r : res A) (k : error_kind) : Prop :=
  ∃ e, r = Raise e ∧ spec_error_kind e = k.

(** ** The command model *)

Section protocol_command.

(** [LibraAddress] is a collaborator: a value type with equality and a
    string codec, [as_str] to encode and [from_encoded_str] to decode;
    decoding raises on input that is not an encoded address ([None]). *)
Context {LibraAddress : Type} `{EqDecision LibraAddress}.
Variable as_str : LibraAddress → string.
Variable from_encoded_str : pyval → option LibraAddress.

(** [JSONSerializable.add_object_type]: the hook through which the
    concrete class merges its own fields into the data dictionary.  The
    method updates the dictionary it is given in place and the caller drops
    its return value; here it maps the dictionary before the call to the
    dictionary after it. *)
Variable add_object_type : gmap string pyval → gmap string pyval.

(** The result type of [get_object], left to the concrete command. *)
Variable SharedObject : Type.

Record ProtocolCommand : Type := {
  reads_version_map : list (string * Z);
  writes_version_map : list (string * Z);
  origin : option LibraAddress;
}.

Global Instance ProtocolCommand_eq_dec : EqDecision ProtocolCommand.
Proof. solve_decision. Defined.

Definition set_reads_version_map l (c : ProtocolCommand) :=
  {| reads_version_map := l;
     writes_version_map := writes_version_map c;
     origin := origin c |}.

Definition set_writes_version_map l (c : ProtocolCommand) :=
  {| reads_version_map := reads_version_map c;
     writes_version_map := l;
     origin := origin c |}.

Definition set_origin_field o (c : ProtocolCommand) :=
  {| reads_version_map := reads_version_map c;
     writes_version_map := writes_version_map c;
     origin := o |}.

Definition __init__ : ProtocolCommand :=
  {| reads_version_map := []; writes_version_map := []; origin := None |}.

Definition __eq__ (self other : ProtocolCommand) : bool :=
  bool_decide (reads_version_map self = reads_version_map other)
  && bool_decide (writes_version_map self = writes_version_map other)
  && bool_decide (origin self = origin other).

Definition get_request_cid : M ProtocolCommand string :=
  raise NotImplementedError.

Definition set_origin (o : option LibraAddress) : M ProtocolCommand unit :=
  self ← this;
  py_assert (bool_decide (origin self = None)
             || bool_decide (o = origin self));;
  assign (set_origin_field o).

Definition get_origin : M ProtocolCommand (option LibraAddress) :=
  self ← this; mret (origin self).

Definition get_dependencies : M ProtocolCommand (gset Z) :=
  self ← this;
  mret (list_to_set ((λ kv, kv.2) <$> reads_version_map self)).

Definition get_new_object_versions : M ProtocolCommand (gset Z) :=
  self ← this;
  mret (list_to_set ((λ kv, kv.2) <$> writes_version_map self)).

Definition get_object (version_number : Z) (dependencies : list SharedObject)
    : M ProtocolCommand SharedObject :=
  raise NotImplementedError.

Definition get_json_data_dict (flag : JSONFlag)
    : M ProtocolCommand (gmap string pyval) :=
  self ← this;
  let data_dict : gmap string pyval :=
    {[ "_reads" := PyDict (PyDict.dict (reads_version_map self));
       "_writes" := PyDict (PyDict.dict (writes_version_map self)) ]} in
  let data_dict :=
    if decide (flag = STORE) then
      match origin self with
      | Some o => PyDict.update data_dict {[ "_origin" := PyStr (as_str o) ]}
      | None => data_dict
      end
    else data_dict in
  let data_dict := add_object_type data_dict in
  mret data_dict.

(** [LibraAddress.from_encoded_str(v)] *)
Definition decode (v : pyval) : res LibraAddress :=
  match from_encoded_str v with
  | Some a => Ok a
  | None => Raise CodecError
  end.

(** The classmethod builds a fresh object, fills it in and returns it; an
    exception on the way leaves nothing behind. *)
Definition from_json_data_dict (data : gmap string pyval) (flag : JSONFlag)
    : res ProtocolCommand :=
  let fill : M ProtocolCommand unit :=
    r ← lift (PyDict.getitem data "_reads");
    ri ← lift (PyDict.items_of r);
    assign (set_reads_version_map ri);;
    w ← lift (PyDict.getitem data "_writes");
    wi ← lift (PyDict.items_of w);
    assign (set_writes_version_map wi);;
    if decide (flag = STORE) then
      if PyDict.contains data "_origin" then
        v ← lift (PyDict.getitem data "_origin");
        a ← lift (decode v);
        assign (set_origin_field (Some a))
      else mret tt
    else mret tt in
  match fill __init__ with
  | (Ok _, self) => Ok self
  | (Raise e, _) => Raise e
  end.

End protocol_command.

(** ** Collaborators used to run the model on concrete commands

    Two parties with one-letter encodings, and the hook of a class that
    records its type name in the data dictionary. *)

Inductive party : Type := PartyA | PartyB.

Global Instance party_eq_dec : EqDecision party.
Proof. solve_decision. Defined.

Definition party_as_str (p : party) : string :=
  match p with PartyA => "A" | PartyB => "B" end.

Definition party_from_encoded_str (v : pyval) : option party :=
  match v with
  | PyStr s =>
      if decide (s = "A") then Some PartyA
      else if decide (s = "B") then Some PartyB
      else None
  | _ => None
  end.

Definition tag_object_type (d : gmap string pyval) : gmap string pyval :=
  <[ "_ObjectType" := PyStr "ProtocolCommand" ]> d.

(** One read of ["obj1"] at version 5 and one write of ["obj2"] at
    version 1, proposed by [o]. *)
Definition example_cmd (o : option party) : ProtocolCommand :=
  {| reads_version_map := [("obj1", 5)];
     writes_version_map := [("obj2", 1)];
     origin := o |}.

(** Two reads of ["obj1"]. *)
Definition example_cmd_dup : ProtocolCommand (LibraAddress := party) :=
  {| reads_version_map := [("obj1", 5); ("obj3", 2); ("obj1", 6)];
     writes_version_map := [];
     origin := None |}.

Definition example_serialize :=
  get_json_data_dict party_as_str tag_object_type.
Definition example_deserialize :=
  from_json_data_dict party_from_encoded_str.

(** A stored command: the data of [example_cmd (Some PartyA)]. *)
Definition example_data : gmap string pyval :=
  {[ "_reads" := PyDict [("obj1", 5)];
     "_writes" := PyDict [("obj2", 1)];
     "_origin" := PyStr "A" ]}.

(** What [example_cmd_dup] is serialized to, and what is read back. *)
Definition example_data_dup : gmap string pyval :=
  {[ "_reads" := PyDict [("obj1", 6); ("obj3", 2)];
     "_writes" := PyDict [];
     "_ObjectType" := PyStr "ProtocolCommand" ]}.

Definition example_cmd_dedup : ProtocolCommand (LibraAddress := party) :=
  {| reads_version_map := [("obj1", 6); ("obj3", 2)];
     writes_version_map := [];
     origin := None |}.

(** The base fields a class hook has to leave alone. *)
Definition keeps_base_fields (f : gmap string pyval → gmap string pyval) :=
  ∀ d k, k ∈ ["_reads"; "_writes"; "_origin"] → f d !! k = d !! k.

(** ** Objects in a store

    To speak of what a call leaves behind, the command and the dictionaries
    a call builds are objects of a store, named by references.  A call
    receives the reference of [self]; [dict(...)] and a dictionary display
    allocate a new object; [update] and the hook of the class write to the
    object they are given. *)

Section object_store.

Context {LibraAddress : Type}.

Inductive obj : Type :=
  | OCommand (c : ProtocolCommand (LibraAddress := LibraAddress))
  | ODict (d : gmap string pyval).

(** [origin.as_str()] and [self.add_object_type(data_dict)] as calls that
    run on the store. *)
Variable as_str_call : LibraAddress → M (gmap nat obj) string.
Variable add_object_type_call : nat → nat → M (gmap nat obj) unit.

(** A new object, at a reference not in use. *)
Definition alloc (o : obj) : M (gmap nat obj) nat :=
  λ h, let l := fresh (dom h) in (Ok l, <[l := o]> h).

(** The fields of [self]. *)
Definition load_command (self : nat) : M (gmap nat obj) ProtocolCommand :=
  λ h, match h !! self with
       | Some (OCommand c) => (Ok c, h)
       | _ => (Raise (AttributeError "reads_version_map"), h)
       end.

(** [d.update(other)], in place. *)
Definition update_at (d : nat) (other : gmap string pyval)
    : M (gmap nat obj) unit :=
  λ h, match h !! d with
       | Some (ODict m) => (Ok tt, <[d := ODict (PyDict.update m other)]> h)
       | _ => (Raise (AttributeError "update"), h)
       end.

(** [get_json_data_dict] on the store: it returns the reference of the
    dictionary it built. *)
Definition get_json_data_dict_at (self : nat) (flag : JSONFlag)
    : M (gmap nat obj) nat :=
  c ← load_command self;
  data_dict ← alloc (ODict
    {[ "_reads" := PyDict (PyDict.dict (reads_version_map c));
       "_writes" := PyDict (PyDict.dict (writes_version_map c)) ]});
  (if decide (flag = STORE) then
     match origin c with
     | Some o =>
         s ← as_str_call o;
         update_at data_dict {[ "_origin" := PyStr s ]}
     | None => mret tt
     end
   else mret tt);;
  add_object_type_call self data_dict;;
  mret data_dict.

End object_store.

(** The collaborators above as calls on the store: the codec reads nothing
    and writes nothing, the hook writes the type name into the dictionary it
    is given. *)
Definition party_as_str_call (p : party)
    : M (gmap nat (obj (LibraAddress := party))) string :=
  λ h, (Ok (party_as_str p), h).

Definition tag_object_type_call (self d : nat)
    : M (gmap nat (obj (LibraAddress := party))) unit :=
  λ h, match h !! d with
       | Some (ODict m) => (Ok tt, <[d := ODict (tag_object_type m)]> h)
       | _ => (Raise (AttributeError "__setitem__"), h)
       end.

(** A store with [example_cmd (Some PartyA)] at reference 0 and some other
    dictionary at reference 1. *)
Definition example_store : gmap nat (obj (LibraAddress := party)) :=
  {[ 0%nat := OCommand (example_cmd (Some PartyA));
     1%nat := ODict {[ "k" := PyInt 3 ]} ]}.

(** * Properties

    ** Insertion-ordered dictionaries: lookups, keys and [dict] *)

Lemma get_setitem_eq k v (d : vdict) :
  PyDict.get k (PyDict.setitem k v d) = Some v.
Proof.
  induction d as [|[k' v'] d IH]; simpl.
  - by rewrite decide_True.
  - destruct (decide (k' = k)) as [->|Hne]; simpl.
    + by rewrite decide_True.
    + by rewrite decide_False.
Qed.

Lemma get_setitem_ne k k' v (d : vdict) :
  k ≠ k' → PyDict.get k' (PyDict.setitem k v d) = PyDict.get k' d.
Proof.
  intros Hne. induction d as [|[k0 v0] d IH]; simpl.
  - by rewrite decide_False.
  - destruct (decide (k0 = k)) as [->|Hk]; simpl.
    + by rewrite !decide_False.
    + destruct (decide (k0 = k')); done.
Qed.

Lemma setitem_fresh (k : string) v (d : vdict) :
  k ∉ d.*1 → PyDict.setitem k v d = d ++ [(k, v)].
Proof.
  induction d as [|[k' v'] d IH]; simpl; [done|].
  rewrite not_elem_of_cons. intros [Hne Hd].
  rewrite decide_False by done. by rewrite IH.
Qed.

Lemma setitem_keys_present (k : string) v (d : vdict) :
  k ∈ d.*1 → (PyDict.setitem k v d).*1 = d.*1.
Proof.
  induction d as [|[k' v'] d IH]; simpl.
  - by intros ?%elem_of_nil.
  - destruct (decide (k' = k)) as [->|Hne]; [done|].
    rewrite elem_of_cons. intros [->|Hd]; [done|].
    rewrite !fmap_cons. by rewrite IH.
Qed.

Lemma setitem_NoDup (k : string) v (d : vdict) :
  NoDup d.*1 → NoDup (PyDict.setitem k v d).*1.
Proof.
  intros Hd. destruct (decide (k ∈ d.*1)) as [Hin|Hout].
  - by rewrite setitem_keys_present.
  - rewrite setitem_fresh by done. rewrite fmap_app. simpl.
    apply NoDup_app. split_and!; [done| |apply NoDup_singleton].
    intros x Hx ->%list_elem_of_singleton. done.
Qed.

Lemma foldl_insert_NoDup (pairs acc : vdict) :
  NoDup acc.*1 → NoDup (foldl PyDict.insert_pair acc pairs).*1.
Proof.
  revert acc. induction pairs as [|[k v] pairs IH]; intros acc Hacc; simpl.
  - done.
  - apply IH. by apply setitem_NoDup.
Qed.

Lemma foldl_insert_distinct (pairs acc : vdict) :
  NoDup (acc ++ pairs).*1 → foldl PyDict.insert_pair acc pairs = acc ++ pairs.
Proof.
  revert acc. induction pairs as [|[k v] pairs IH]; intros acc Hnd; simpl.
  - by rewrite app_nil_r.
  - unfold PyDict.insert_pair at 2. simpl.
    assert (k ∉ acc.*1) as Hk.
    { rewrite fmap_app in Hnd. simpl in Hnd.
      apply NoDup_app in Hnd as (_ & Hdisj & _).
      intros Hin. apply (Hdisj k Hin). left. }
    rewrite setitem_fresh by done.
    rewrite IH; rewrite <- app_assoc; done.
Qed.

Lemma get_foldl_insert_absent (k : string) (pairs acc : vdict) :
  k ∉ pairs.*1 →
  PyDict.get k (foldl PyDict.insert_pair acc pairs) = PyDict.get k acc.
Proof.
  revert acc. induction pairs as [|[k' v'] pairs IH]; intros acc; simpl.
  - done.
  - rewrite not_elem_of_cons. intros [Hne Hk].
    rewrite IH by done. unfold PyDict.insert_pair. simpl.
    by apply get_setitem_ne.
Qed.

(** [dict] leaves a sequence of pairs with distinct keys as it is. *)
Lemma dict_distinct (pairs : vdict) : NoDup pairs.*1 → PyDict.dict pairs = pairs.
Proof. intros Hnd. unfold PyDict.dict. by apply foldl_insert_distinct. Qed.

Lemma dict_NoDup pairs : NoDup (PyDict.dict pairs).*1.
Proof. unfold PyDict.dict. apply foldl_insert_NoDup. constructor. Qed.

(** The last pair of a key decides the value [dict] binds it to. *)
Lemma get_dict_last (l1 : vdict) (k : string) v (l2 : vdict) :
  k ∉ l2.*1 → PyDict.get k (PyDict.dict (l1 ++ (k, v) :: l2)) = Some v.
Proof.
  intros Hk. unfold PyDict.dict. rewrite foldl_app. simpl.
  rewrite get_foldl_insert_absent by done.
  unfold PyDict.insert_pair. simpl. apply get_setitem_eq.
Qed.

(** What a lookup finds, in terms of the items. *)
Lemma get_None_keys (k : string) (d : vdict) :
  PyDict.get k d = None ↔ k ∉ d.*1.
Proof.
  induction d as [|[k' v'] d IH]; simpl.
  - split; [intros _; apply not_elem_of_nil|done].
  - rewrite not_elem_of_cons. destruct (decide (k' = k)) as [->|Hne].
    + split; [done|]. by intros [? _].
    + rewrite IH. split; [|by intros [_ ?]]. intros ?. split; [|done].
      by intros ->.
Qed.

Lemma get_Some_elem (k : string) (v : Z) (d : vdict) :
  PyDict.get k d = Some v → (k, v) ∈ d.
Proof.
  induction d as [|[k' v'] d IH]; simpl; [done|].
  destruct (decide (k' = k)) as [->|Hne].
  - intros [= ->]. left.
  - intros Hg. right. by apply IH.
Qed.

Lemma elem_get_distinct (k : string) (v : Z) (d : vdict) :
  NoDup d.*1 → (k, v) ∈ d → PyDict.get k d = Some v.
Proof.
  induction d as [|[k' v'] d IH].
  - by intros _ ?%elem_of_nil.
  - rewrite fmap_cons, NoDup_cons. intros [Hk' Hd].
    rewrite elem_of_cons. simpl. intros [[= -> ->]|Hin].
    + by rewrite decide_True.
    + destruct (decide (k' = k)) as [->|Hne]; [|by apply IH].
      exfalso. apply Hk'.
      apply list_elem_of_fmap. by exists (k, v).
Qed.

Lemma dict_snoc (l : vdict) (k : string) (v : Z) :
  PyDict.dict (l ++ [(k, v)]) = PyDict.setitem k v (PyDict.dict l).
Proof. unfold PyDict.dict. by rewrite foldl_app. Qed.

(** [dict] binds a key to the value of its last pair: a lookup in the
    dictionary is a search of the pairs from the right. *)
Lemma get_dict_reverse (k : string) (l : vdict) :
  PyDict.get k (PyDict.dict l) = PyDict.get k (reverse l).
Proof.
  induction l as [|[k' v'] l IH] using rev_ind; [done|].
  rewrite dict_snoc, reverse_app. simpl.
  destruct (decide (k' = k)) as [->|Hne].
  - apply get_setitem_eq.
  - by rewrite get_setitem_ne.
Qed.

Lemma dict_idempotent (l : vdict) :
  PyDict.dict (PyDict.dict l) = PyDict.dict l.
Proof. apply dict_distinct, dict_NoDup. Qed.

Lemma dict_fixed_iff (l : vdict) : PyDict.dict l = l ↔ NoDup l.*1.
Proof.
  split; [|apply dict_distinct].
  intros Hl. rewrite <- Hl. apply dict_NoDup.
Qed.

Lemma elem_of_dict (k : string) (v : Z) (l : vdict) :
  (k, v) ∈ PyDict.dict l → (k, v) ∈ l.
Proof.
  intros Hin. apply (elem_get_distinct _ _ _ (dict_NoDup l)) in Hin.
  rewrite get_dict_reverse in Hin. apply get_Some_elem in Hin.
  by apply elem_of_reverse.
Qed.

Lemma dict_keys (k : string) (l : vdict) :
  k ∈ (PyDict.dict l).*1 ↔ k ∈ l.*1.
Proof.
  destruct (decide (k ∈ (PyDict.dict l).*1)) as [Hin|Hout];
    destruct (decide (k ∈ l.*1)) as [Hin'|Hout']; try done; exfalso.
  - revert Hin. apply get_None_keys. rewrite get_dict_reverse.
    apply get_None_keys. by rewrite fmap_reverse, elem_of_reverse.
  - apply get_None_keys in Hout. rewrite get_dict_reverse in Hout.
    apply get_None_keys in Hout. apply Hout.
    by rewrite fmap_reverse, elem_of_reverse.
Qed.

Section protocol_command_facts.

Context {LibraAddress : Type} `{EqDecision LibraAddress}.
Variable as_str : LibraAddress → string.
Variable from_encoded_str : pyval → option LibraAddress.
Variable add_object_type : gmap string pyval → gmap string pyval.
Variable SharedObject : Type.

Implicit Types c : ProtocolCommand (LibraAddress := LibraAddress).

(** ** Origin attestation *)

Lemma set_origin_unset o c :
  origin c = None → set_origin o c = (Ok tt, set_origin_field o c).
Proof.
  intros Hc.
  unfold set_origin, mbind, M_bind, this, py_assert. simpl. by rewrite Hc.
Qed.

Lemma set_origin_same a c :
  origin c = Some a → set_origin (Some a) c = (Ok tt, c).
Proof.
  intros Hc. destruct c as [r w o]. simpl in Hc. subst o.
  unfold set_origin, mbind, M_bind, this, py_assert. simpl.
  rewrite (bool_decide_eq_true_2 (Some a = Some a)) by done. done.
Qed.

Lemma set_origin_other o a c :
  origin c = Some a → o ≠ Some a →
  set_origin o c = (Raise AssertionError, c).
Proof.
  intros Hc Hne.
  unfold set_origin, mbind, M_bind, this, py_assert. simpl. rewrite Hc.
  rewrite (bool_decide_eq_false_2 (o = Some a)) by done. done.
Qed.

Lemma set_origin_Ok_inv o c :
  outcome (set_origin o) c = Ok tt → after (set_origin o) c = set_origin_field o c.
Proof.
  unfold outcome, after. destruct (origin c) as [a|] eqn:Hc.
  - destruct (decide (o = Some a)) as [->|Hne].
    + rewrite set_origin_same by done.
      destruct c as [r w oc]. simpl in Hc. by subst.
    + by rewrite (set_origin_other o a).
  - by rewrite set_origin_unset.
Qed.

(** C3: once [set_origin(a)] has succeeded, [set_origin(a)] again returns
    normally and changes nothing, while [set_origin(b)] with [b ≠ a] fails
    its assertion (the state conflict) and changes nothing; in both cases
    the origin is still [a]. *)
Theorem set_origin_idempotent_then_conflict
    c (a b : LibraAddress) :
  a ≠ b →
  outcome (set_origin (Some a)) c = Ok tt →
  let c1 := after (set_origin (Some a)) c in
  origin c1 = Some a
  ∧ set_origin (Some a) c1 = (Ok tt, c1)
  ∧ set_origin (Some b) c1 = (Raise AssertionError, c1)
  ∧ raises_kind (set_origin (Some b)) c1 StateConflict
  ∧ origin (after (set_origin (Some b)) c1) = Some a.
Proof.
  intros Hab Hok c1.
  assert (origin c1 = Some a) as H1.
  { subst c1. by rewrite set_origin_Ok_inv. }
  assert (set_origin (Some b) c1 = (Raise AssertionError, c1)) as Hb.
  { apply (set_origin_other _ a); [done|congruence]. }
  split_and!; [done|by apply set_origin_same|done| |].
  - exists AssertionError. unfold outcome. by rewrite Hb.
  - unfold after. by rewrite Hb.
Qed.

(** C10: on a command without origin, [set_origin(None)] passes the
    assertion and leaves the origin unset, and a later [set_origin] with an
    address still succeeds and sets it: the origin is then that address. *)
Theorem set_origin_None_unchecked c (a : LibraAddress) :
  origin c = None →
  set_origin None c = (Ok tt, c)
  ∧ origin (after (set_origin None) c) = None
  ∧ set_origin (Some a) (after (set_origin None) c)
    = (Ok tt, set_origin_field (Some a) c)
  ∧ origin (after (set_origin (Some a)) (after (set_origin None) c))
    = Some a.
Proof.
  intros Hc.
  assert (set_origin None c = (Ok tt, c)) as Hn.
  { rewrite set_origin_unset by done. destruct c as [r w o]. simpl in Hc.
    by subst. }
  unfold after. rewrite Hn. simpl.
  rewrite (set_origin_unset (Some a) c Hc). by split_and!.
Qed.

(** ** Dependency sets *)

Lemma elem_of_versions (v : Z) (l : list (string * Z)) :
  v ∈ (list_to_set ((λ kv, kv.2) <$> l) : gset Z) ↔ ∃ k, (k, v) ∈ l.
Proof.
  rewrite elem_of_list_to_set, list_elem_of_fmap. split.
  - intros [[k v'] [-> Hin]]. by exists k.
  - intros [k Hin]. by exists (k, v).
Qed.

Lemma versions_perm (l l' : list (string * Z)) :
  l ≡ₚ l' →
  (list_to_set ((λ kv, kv.2) <$> l) : gset Z)
  = list_to_set ((λ kv, kv.2) <$> l').
Proof. intros Hp. apply list_to_set_perm_L. by rewrite Hp. Qed.

(** C4: [get_dependencies] is the set of the versions named in the reads
    and [get_new_object_versions] the set of those named in the writes;
    both are empty for an empty sequence and do not depend on the order of
    the entries.  Neither call changes the command. *)
Theorem version_sets_derived c :
  ∃ D N : gset Z,
    get_dependencies c = (Ok D, c)
    ∧ get_new_object_versions c = (Ok N, c)
    ∧ (∀ v, v ∈ D ↔ ∃ k, (k, v) ∈ reads_version_map c)
    ∧ (∀ v, v ∈ N ↔ ∃ k, (k, v) ∈ writes_version_map c)
    ∧ (reads_version_map c = [] → D = ∅)
    ∧ (writes_version_map c = [] → N = ∅)
    ∧ (∀ c', reads_version_map c' ≡ₚ reads_version_map c →
             outcome get_dependencies c' = Ok D)
    ∧ (∀ c', writes_version_map c' ≡ₚ writes_version_map c →
             outcome get_new_object_versions c' = Ok N).
Proof.
  eexists _, _. split_and!; [reflexivity|reflexivity|..].
  - intros v. apply elem_of_versions.
  - intros v. apply elem_of_versions.
  - by intros ->.
  - by intros ->.
  - intros c' Hp. unfold outcome. simpl. f_equal. by apply versions_perm.
  - intros c' Hp. unfold outcome. simpl. f_equal. by apply versions_perm.
Qed.

(** ** The abstract [get_object] *)

(** C6: [get_object] of the base command raises
    [NotImplementedError] for every version, declared or not, without
    looking at the writes; it is reported as the abstract-method error, not
    as an unknown version, and the command is unchanged. *)
Theorem get_object_not_implemented
    c (v : Z) (deps : list SharedObject) :
  get_object SharedObject v deps c = (Raise NotImplementedError, c)
  ∧ raises_kind (get_object SharedObject v deps) c NotImplemented
  ∧ ¬ raises_kind (get_object SharedObject v deps) c UnknownVersion.
Proof.
  split_and!; [done|by exists NotImplementedError|].
  intros [e [He Hk]]. unfold outcome in He. simpl in He.
  injection He as <-. discriminate.
Qed.

(** ** Serialization *)

(** What the collaborators are relied on for: decoding inverts encoding,
    and the hook of the concrete class leaves the three fields of the base
    command as they are. *)
Hypothesis codec_roundtrip :
  ∀ a, from_encoded_str (PyStr (as_str a)) = Some a.
Hypothesis add_object_type_keeps : keeps_base_fields add_object_type.

Lemma get_json_data_dict_fields flag c :
  ∃ data,
    get_json_data_dict as_str add_object_type flag c = (Ok data, c)
    ∧ data !! "_reads" = Some (PyDict (PyDict.dict (reads_version_map c)))
    ∧ data !! "_writes" = Some (PyDict (PyDict.dict (writes_version_map c)))
    ∧ data !! "_origin"
      = match flag with
        | STORE => (λ a, PyStr (as_str a)) <$> origin c
        | NET => None
        end.
Proof.
  eexists. split; [reflexivity|].
  unfold keeps_base_fields in add_object_type_keeps.
  rewrite !add_object_type_keeps by (repeat constructor).
  unfold PyDict.update.
  destruct flag, (origin c) as [a|]; simpl; by simplify_map_eq.
Qed.

(** The result of deserialization when both version maps are there. *)
Lemma from_json_data_dict_maps data flag r w :
  data !! "_reads" = Some (PyDict r) →
  data !! "_writes" = Some (PyDict w) →
  from_json_data_dict from_encoded_str data flag
  = match flag, data !! "_origin" with
    | STORE, Some v =>
        match from_encoded_str v with
        | Some a =>
            Ok {| reads_version_map := r; writes_version_map := w;
                  origin := Some a |}
        | None => Raise CodecError
        end
    | _, _ =>
        Ok {| reads_version_map := r; writes_version_map := w;
              origin := None |}
    end.
Proof.
  intros Hr Hw.
  unfold from_json_data_dict, mbind, M_bind, lift, assign, decode.
  unfold PyDict.getitem, PyDict.contains. rewrite Hr, Hw. simpl.
  destruct flag; simpl; [done|].
  destruct (data !! "_origin") as [v|] eqn:Ho.
  - rewrite bool_decide_eq_true_2 by eauto.
    by destruct (from_encoded_str v).
  - rewrite bool_decide_eq_false_2; [done|]. by intros [? ?].
Qed.

Lemma from_json_data_dict_no_reads data flag :
  PyDict.has_mapping data "_reads" = false →
  ∃ e, from_json_data_dict from_encoded_str data flag = Raise e
       ∧ (e = KeyError "_reads" ∨ e = AttributeError "items").
Proof.
  unfold PyDict.has_mapping. intros Hr.
  unfold from_json_data_dict, mbind, M_bind, lift, PyDict.getitem.
  destruct (data !! "_reads") as [[]|]; try discriminate; simpl; eauto.
Qed.

Lemma from_json_data_dict_no_writes data flag :
  PyDict.has_mapping data "_writes" = false →
  ∃ e, from_json_data_dict from_encoded_str data flag = Raise e
       ∧ (e = KeyError "_reads" ∨ e = KeyError "_writes"
          ∨ e = AttributeError "items").
Proof.
  intros Hw.
  destruct (PyDict.has_mapping data "_reads") eqn:Hr.
  - unfold PyDict.has_mapping in *.
    unfold from_json_data_dict, mbind, M_bind, lift, assign, PyDict.getitem.
    destruct (data !! "_reads") as [[]|]; try discriminate; simpl.
    destruct (data !! "_writes") as [[]|]; try discriminate; simpl; eauto.
  - destruct (from_json_data_dict_no_reads data flag Hr) as (e & -> & He).
    exists e. split; [done|]. destruct He; auto.
Qed.

Lemma from_json_data_dict_bad_origin data v :
  data !! "_origin" = Some v → from_encoded_str v = None →
  ∃ e, from_json_data_dict from_encoded_str data STORE = Raise e
       ∧ (e = KeyError "_reads" ∨ e = KeyError "_writes"
          ∨ e = AttributeError "items" ∨ e = CodecError).
Proof.
  intros Ho Hv.
  destruct (PyDict.has_mapping data "_writes") eqn:Hw.
  - destruct (PyDict.has_mapping data "_reads") eqn:Hr.
    + unfold PyDict.has_mapping in *.
      destruct (data !! "_reads") as [[]|] eqn:Er; try discriminate.
      destruct (data !! "_writes") as [[]|] eqn:Ew; try discriminate.
      rewrite (from_json_data_dict_maps _ _ _ _ Er Ew), Ho, Hv. eauto 6.
    + destruct (from_json_data_dict_no_reads data STORE Hr) as (e & -> & He).
      exists e. split; [done|]. destruct He; auto.
  - destruct (from_json_data_dict_no_writes data STORE Hw) as (e & -> & He).
    exists e. split; [done|]. destruct He as [|[|]]; auto.
Qed.

(** C1: a command whose reads and whose writes name each object at most
    once comes back from STORE-mode serialization followed by STORE-mode
    deserialization: the result compares equal ([__eq__]) to the command,
    with or without an origin. *)
Theorem store_roundtrip c :
  NoDup (reads_version_map c).*1 →
  NoDup (writes_version_map c).*1 →
  ∃ data c',
    get_json_data_dict as_str add_object_type STORE c = (Ok data, c)
    ∧ from_json_data_dict from_encoded_str data STORE = Ok c'
    ∧ __eq__ c' c = true
    ∧ c' = c.
Proof.
  intros Hr Hw.
  destruct (get_json_data_dict_fields STORE c) as (data & Hrun & Dr & Dw & Do).
  rewrite dict_distinct in Dr by done. rewrite dict_distinct in Dw by done.
  assert (from_json_data_dict from_encoded_str data STORE = Ok c) as Hback.
  { rewrite (from_json_data_dict_maps _ _ _ _ Dr Dw), Do.
    destruct c as [r w [a|]]; simpl; [|done].
    by rewrite codec_roundtrip. }
  exists data, c. split_and!; [done..| |done].
  unfold __eq__. by rewrite !bool_decide_eq_true_2.
Qed.

(** C2: the serialized dictionary has an ["_origin"] entry exactly when
    the mode is STORE and the origin is set; for a command with origin [a]
    the NET output has none and the STORE output binds it to
    [as_str a]. *)
Theorem origin_only_in_store c (flag : JSONFlag) :
  ∃ data dnet dstore,
    get_json_data_dict as_str add_object_type flag c = (Ok data, c)
    ∧ (is_Some (data !! "_origin") ↔ flag = STORE ∧ is_Some (origin c))
    ∧ get_json_data_dict as_str add_object_type NET c = (Ok dnet, c)
    ∧ get_json_data_dict as_str add_object_type STORE c = (Ok dstore, c)
    ∧ ∀ a, origin c = Some a →
           dnet !! "_origin" = None
           ∧ dstore !! "_origin" = Some (PyStr (as_str a)).
Proof.
  destruct (get_json_data_dict_fields flag c) as (data & Hrun & _ & _ & Do).
  destruct (get_json_data_dict_fields NET c) as (dnet & Hn & _ & _ & Dn).
  destruct (get_json_data_dict_fields STORE c) as (dst & Hs & _ & _ & Ds).
  exists data, dnet, dst. split_and!; [done| |done|done|].
  - rewrite Do. destruct flag, (origin c); simpl; split;
      try (intros [? ?]; done); try (intros [[=] ?]); try (intros [? [? [=]]]);
      eauto.
  - intros a Ha. rewrite Dn, Ds, Ha. done.
Qed.

(** C5: deserialization raises, and returns no command, when the
    ["_reads"] or the ["_writes"] entry is missing or is not a dictionary,
    and in STORE mode when the ["_origin"] entry is there and cannot be
    decoded; the exception is a [KeyError], an [AttributeError] or the
    codec's own, all reported as malformed data. *)
Theorem from_json_data_dict_malformed
    (data : gmap string pyval) (flag : JSONFlag) :
  PyDict.has_mapping data "_reads" = false
  ∨ PyDict.has_mapping data "_writes" = false
  ∨ (flag = STORE
     ∧ ∃ v, data !! "_origin" = Some v ∧ from_encoded_str v = None) →
  fails_kind (from_json_data_dict from_encoded_str data flag) MalformedData
  ∧ ∀ c, from_json_data_dict from_encoded_str data flag ≠ Ok c.
Proof.
  intros Hbad.
  assert (∃ e, from_json_data_dict from_encoded_str data flag = Raise e
               ∧ (e = KeyError "_reads" ∨ e = KeyError "_writes"
                  ∨ e = AttributeError "items" ∨ e = CodecError))
    as (e & He & Hk).
  { destruct Hbad as [Hr|[Hw|(-> & v & Ho & Hv)]].
    - destruct (from_json_data_dict_no_reads data flag Hr) as (e & ? & He).
      exists e. split; [done|]. destruct He; auto.
    - destruct (from_json_data_dict_no_writes data flag Hw) as (e & ? & He).
      exists e. split; [done|]. destruct He as [|[|]]; auto.
    - by apply (from_json_data_dict_bad_origin data v). }
  split.
  - exists e. split; [done|]. by destruct Hk as [->|[->|[->| ->]]].
  - intros c. by rewrite He.
Qed.

Lemma from_json_data_dict_net_delete data :
  from_json_data_dict from_encoded_str data NET
  = from_json_data_dict from_encoded_str (delete "_origin" data) NET.
Proof.
  unfold from_json_data_dict, mbind, M_bind, lift, PyDict.getitem. simpl.
  rewrite !lookup_delete_ne by done. reflexivity.
Qed.

Lemma from_json_data_dict_net_origin data c :
  from_json_data_dict from_encoded_str data NET = Ok c → origin c = None.
Proof.
  unfold from_json_data_dict, mbind, M_bind, lift, assign, PyDict.getitem.
  destruct (data !! "_reads") as [[]|]; simpl; try discriminate.
  destruct (data !! "_writes") as [[]|]; simpl; try discriminate.
  by intros [= <-].
Qed.

(** C7: in NET mode deserialization does not look at the ["_origin"]
    entry.  On data that has one, the result is the result on the data
    without it; with both version maps there a command is returned, and any
    command returned has no origin.  So it is for the STORE-mode
    serialization of a command whose origin is set. *)
Theorem net_never_reads_origin (data : gmap string pyval) (v : pyval) :
  data !! "_origin" = Some v →
  from_json_data_dict from_encoded_str data NET
    = from_json_data_dict from_encoded_str (delete "_origin" data) NET
  ∧ (∀ c, from_json_data_dict from_encoded_str data NET = Ok c → origin c = None)
  ∧ (∀ r w,
       data !! "_reads" = Some (PyDict r) →
       data !! "_writes" = Some (PyDict w) →
       from_json_data_dict from_encoded_str data NET
       = Ok {| reads_version_map := r; writes_version_map := w;
               origin := None |})
  ∧ (∀ c a,
       origin c = Some a →
       ∃ stored c',
         get_json_data_dict as_str add_object_type STORE c = (Ok stored, c)
         ∧ stored !! "_origin" = Some (PyStr (as_str a))
         ∧ from_json_data_dict from_encoded_str stored NET = Ok c'
         ∧ origin c' = None).
Proof.
  intros Ho. split_and!.
  - apply from_json_data_dict_net_delete.
  - apply from_json_data_dict_net_origin.
  - intros r w Hr Hw. by rewrite (from_json_data_dict_maps _ _ _ _ Hr Hw).
  - intros c a Ha.
    destruct (get_json_data_dict_fields STORE c)
      as (stored & Hrun & Dr & Dw & Do).
    rewrite Ha in Do. simpl in Do.
    exists stored.
    eexists {| reads_version_map := _; writes_version_map := _;
               origin := None |}.
    split_and!; [done|done| |done].
    by rewrite (from_json_data_dict_maps _ _ _ _ Dr Dw).
Qed.


(** C9: when two reads (or two writes) name the same object, serialization
    still returns normally, and the version map it builds has one
    entry for that object, bound to the version of the later pair. *)
Theorem duplicate_object_id_last_wins
    c (flag : JSONFlag)
    (l1 l2 l3 : list (string * Z)) (k : string) (v1 v2 : Z) :
  k ∉ l3.*1 →
  ∃ data mr mw,
    get_json_data_dict as_str add_object_type flag c = (Ok data, c)
    ∧ data !! "_reads" = Some (PyDict mr)
    ∧ data !! "_writes" = Some (PyDict mw)
    ∧ NoDup mr.*1 ∧ NoDup mw.*1
    ∧ (reads_version_map c = l1 ++ (k, v1) :: l2 ++ (k, v2) :: l3 →
       PyDict.get k mr = Some v2)
    ∧ (writes_version_map c = l1 ++ (k, v1) :: l2 ++ (k, v2) :: l3 →
       PyDict.get k mw = Some v2).
Proof.
  intros Hk.
  destruct (get_json_data_dict_fields flag c) as (data & Hrun & Dr & Dw & _).
  assert (∀ l, l = l1 ++ (k, v1) :: l2 ++ (k, v2) :: l3 →
               PyDict.get k (PyDict.dict l) = Some v2) as Hlast.
  { intros l ->.
    replace (l1 ++ (k, v1) :: l2 ++ (k, v2) :: l3)
      with ((l1 ++ (k, v1) :: l2) ++ (k, v2) :: l3)
      by (by rewrite <- app_assoc).
    by apply get_dict_last. }
  eexists data, _, _.
  split_and!; [done|exact Dr|exact Dw|apply dict_NoDup..| |]; apply Hlast.
Qed.

(** ** More on the origin *)

(** [set_origin] succeeds exactly when the origin is unset or is already the
    value given; then the origin is that value and the version maps are as
    before.  In every other case the assertion fails and the command is as
    before: an origin that is set can neither be replaced nor be cleared
    with [None]. *)
Theorem set_origin_succeeds_iff (o : option LibraAddress) c :
  (outcome (set_origin o) c = Ok tt ↔ origin c = None ∨ o = origin c)
  ∧ (outcome (set_origin o) c = Ok tt →
     after (set_origin o) c
     = {| reads_version_map := reads_version_map c;
          writes_version_map := writes_version_map c;
          origin := o |}
     ∧ origin (after (set_origin o) c) = o)
  ∧ (outcome (set_origin o) c ≠ Ok tt →
     set_origin o c = (Raise AssertionError, c)
     ∧ origin (after (set_origin o) c) = origin c
     ∧ ∃ a, origin c = Some a ∧ o ≠ Some a).
Proof.
  destruct (origin c) as [a|] eqn:Hc.
  - destruct (decide (o = Some a)) as [->|Hne].
    + pose proof (set_origin_same a c Hc) as Hs. unfold outcome, after.
      rewrite Hs. simpl. split_and!.
      * split; [by right|done].
      * intros _. split; [|done]. destruct c as [r w oc]. simpl in Hc.
        by subst.
      * by intros [].
    + pose proof (set_origin_other o a c Hc Hne) as Hs. unfold outcome, after.
      rewrite Hs. simpl. split_and!.
      * split; [done|]. by intros [|].
      * done.
      * intros _. split_and!; [done|done|]. by exists a.
  - pose proof (set_origin_unset o c Hc) as Hs. unfold outcome, after.
    rewrite Hs. simpl. split_and!.
    + split; [by left|done].
    + done.
    + by intros [].
Qed.

(** Once an address is set as origin, no sequence of [set_origin] calls,
    whatever their arguments and whether they raise or not, changes the
    command. *)
Theorem origin_is_final (a : LibraAddress) c (calls : list (option LibraAddress)) :
  origin c = Some a →
  foldl (λ c' o, after (set_origin o) c') c calls = c.
Proof.
  intros Hc. induction calls as [|o calls IH]; simpl; [done|].
  assert (after (set_origin o) c = c) as ->; [|done].
  unfold after. destruct (decide (o = Some a)) as [->|Hne].
  - by rewrite set_origin_same.
  - by rewrite (set_origin_other o a).
Qed.

(** [set_origin] writes no field but the origin: the version maps, and the
    dependency sets derived from them, are the same after the call, whether
    it raised or not. *)
Theorem set_origin_keeps_version_maps (o : option LibraAddress) c :
  reads_version_map (after (set_origin o) c) = reads_version_map c
  ∧ writes_version_map (after (set_origin o) c) = writes_version_map c
  ∧ outcome get_dependencies (after (set_origin o) c)
    = outcome get_dependencies c
  ∧ outcome get_new_object_versions (after (set_origin o) c)
    = outcome get_new_object_versions c.
Proof.
  assert (reads_version_map (after (set_origin o) c) = reads_version_map c
          ∧ writes_version_map (after (set_origin o) c)
            = writes_version_map c) as [Hr Hw].
  { unfold after. destruct (origin c) as [a|] eqn:Hc.
    - destruct (decide (o = Some a)) as [->|Hne].
      + by rewrite set_origin_same.
      + by rewrite (set_origin_other o a).
    - by rewrite set_origin_unset. }
  split_and!; [done|done|..]; unfold outcome; simpl; by rewrite ?Hr, ?Hw.
Qed.

(** [get_origin] after [set_origin]: the call sequence returns the value
    given when the assignment was allowed, and raises otherwise; read after
    a failed call, the origin is the one set before. *)
Theorem get_origin_after_set_origin (o : option LibraAddress) c :
  outcome (set_origin o;; get_origin) c
  = (if decide (origin c = None ∨ o = origin c)
     then Ok o else Raise AssertionError)
  ∧ (outcome (set_origin o) c ≠ Ok tt →
     outcome get_origin (after (set_origin o) c) = Ok (origin c)).
Proof.
  unfold outcome, after, mbind, M_bind.
  destruct (decide (origin c = None ∨ o = origin c)) as [Hd|Hd].
  - assert (set_origin o c = (Ok tt, set_origin_field o c)) as ->.
    { destruct Hd as [Hn|He]; [by apply set_origin_unset|].
      destruct (origin c) as [a|] eqn:Hc; [|by apply set_origin_unset].
      subst o. rewrite (set_origin_same a c Hc).
      destruct c as [r w oc]. simpl in Hc. by subst. }
    simpl. split; [done|]. by intros [].
  - destruct (origin c) as [a|] eqn:Hc; [|destruct Hd; by left].
    rewrite (set_origin_other o a c Hc) by (intros ->; apply Hd; by right).
    simpl. by rewrite Hc.
Qed.

(** ** Equality of commands *)

(** [__eq__] holds exactly for commands with the same reads in the same
    order, the same writes in the same order and the same origin.  Equal
    dependency sets are not enough: two reads in the other order make the
    commands differ. *)
Theorem eq_commands_iff c1 c2 :
  (__eq__ c1 c2 = true ↔ c1 = c2)
  ∧ __eq__ c1 c2 = __eq__ c2 c1
  ∧ (∀ k1 v1 k2 v2 l,
       reads_version_map c1 = (k1, v1) :: (k2, v2) :: l →
       reads_version_map c2 = (k2, v2) :: (k1, v1) :: l →
       (k1, v1) ≠ (k2, v2) →
       __eq__ c1 c2 = false
       ∧ outcome get_dependencies c1 = outcome get_dependencies c2).
Proof.
  assert (__eq__ c1 c2 = true ↔ c1 = c2) as Hiff.
  { unfold __eq__. rewrite !andb_true_iff, !bool_decide_eq_true.
    split; [|by intros ->].
    destruct c1, c2; simpl. by intros [[-> ->] ->]. }
  split_and!; [done| |].
  - unfold __eq__.
    rewrite (bool_decide_ext _ _ (symmetry_iff (=) (reads_version_map c1) _)).
    rewrite (bool_decide_ext _ _ (symmetry_iff (=) (writes_version_map c1) _)).
    by rewrite (bool_decide_ext _ _ (symmetry_iff (=) (origin c1) _)).
  - intros k1 v1 k2 v2 l H1 H2 Hne. split.
    + apply not_true_is_false. rewrite Hiff. intros ->.
      rewrite H1 in H2. by injection H2 as -> ->.
    + unfold outcome. simpl. f_equal. apply versions_perm.
      rewrite H1, H2. apply Permutation_swap.
Qed.

(** ** More on deserialization *)

(** The result of [from_json_data_dict], entry by entry in the order the
    entries are read. *)
Lemma from_json_data_dict_cases data flag :
  from_json_data_dict from_encoded_str data flag
  = match data !! "_reads" with
    | None => Raise (KeyError "_reads")
    | Some (PyDict r) =>
        match data !! "_writes" with
        | None => Raise (KeyError "_writes")
        | Some (PyDict w) =>
            match flag, data !! "_origin" with
            | STORE, Some v =>
                match from_encoded_str v with
                | Some a =>
                    Ok {| reads_version_map := r; writes_version_map := w;
                          origin := Some a |}
                | None => Raise CodecError
                end
            | _, _ =>
                Ok {| reads_version_map := r; writes_version_map := w;
                      origin := None |}
            end
        | Some _ => Raise (AttributeError "items")
        end
    | Some _ => Raise (AttributeError "items")
    end.
Proof.
  destruct (data !! "_reads") as [vr|] eqn:Hr.
  - destruct (data !! "_writes") as [vw|] eqn:Hw.
    + destruct vr as [| | | | |r];
        try (unfold from_json_data_dict, mbind, M_bind, lift, PyDict.getitem;
             rewrite Hr; reflexivity).
      destruct vw as [| | | | |w];
        try (unfold from_json_data_dict, mbind, M_bind, lift, assign,
               PyDict.getitem; rewrite Hr, Hw; reflexivity).
      apply (from_json_data_dict_maps _ _ _ _ Hr Hw).
    + unfold from_json_data_dict, mbind, M_bind, lift, assign, PyDict.getitem.
      rewrite Hr, Hw. by destruct vr.
  - unfold from_json_data_dict, mbind, M_bind, lift, PyDict.getitem.
    by rewrite Hr.
Qed.

(** Deserialization returns a command exactly when both version maps are
    present as dictionaries and, in STORE mode, the ["_origin"] entry, if
    there is one, can be decoded.  Nothing else in the data matters. *)
Theorem from_json_data_dict_succeeds_iff
    (data : gmap string pyval) (flag : JSONFlag) :
  (∃ c, from_json_data_dict from_encoded_str data flag = Ok c)
  ↔ PyDict.has_mapping data "_reads" = true
    ∧ PyDict.has_mapping data "_writes" = true
    ∧ (flag = STORE →
       ∀ v, data !! "_origin" = Some v → is_Some (from_encoded_str v)).
Proof.
  rewrite from_json_data_dict_cases. unfold PyDict.has_mapping.
  destruct (data !! "_reads") as [[| | | | |r]|];
    try (split; [by intros [? [=]]|by intros [[=] _]]).
  destruct (data !! "_writes") as [[| | | | |w]|];
    try (split; [by intros [? [=]]|by intros (_ & [=] & _)]).
  destruct flag.
  - split; [|by eauto]. intros _. by split_and!.
  - destruct (data !! "_origin") as [v|].
    + destruct (from_encoded_str v) as [a|] eqn:Hv.
      * split; [|by eauto]. intros _. split_and!; [done..|].
        intros _ v' [= <-]. by rewrite Hv.
      * split; [by intros [? [=]]|]. intros (_ & _ & Hd).
        destruct (Hd eq_refl v eq_refl) as [a Ha]. congruence.
    + split; [|by eauto]. intros _. by split_and!.
Qed.

(** Which exception deserialization raises.  The entries are read in the
    order ["_reads"], ["_writes"], ["_origin"] and the first bad one
    decides: a [KeyError] names the first version map that is missing, and
    the codec is only asked once both version maps have been accepted.  No
    other exception is raised. *)
Theorem from_json_data_dict_exception
    (data : gmap string pyval) (flag : JSONFlag) (e : exn) :
  from_json_data_dict from_encoded_str data flag = Raise e →
  (e = KeyError "_reads" ∧ data !! "_reads" = None)
  ∨ (e = AttributeError "items" ∧ is_Some (data !! "_reads")
     ∧ PyDict.has_mapping data "_reads" = false)
  ∨ (e = KeyError "_writes" ∧ PyDict.has_mapping data "_reads" = true
     ∧ data !! "_writes" = None)
  ∨ (e = AttributeError "items" ∧ PyDict.has_mapping data "_reads" = true
     ∧ is_Some (data !! "_writes")
     ∧ PyDict.has_mapping data "_writes" = false)
  ∨ (e = CodecError ∧ PyDict.has_mapping data "_reads" = true
     ∧ PyDict.has_mapping data "_writes" = true ∧ flag = STORE
     ∧ ∃ v, data !! "_origin" = Some v ∧ from_encoded_str v = None).
Proof.
  rewrite from_json_data_dict_cases. unfold PyDict.has_mapping.
  destruct (data !! "_reads") as [[| | | | |r]|];
    try (intros [= <-]; by eauto 10).
  destruct (data !! "_writes") as [[| | | | |w]|];
    try (intros [= <-]; by eauto 10).
  destruct flag; [done|].
  destruct (data !! "_origin") as [v|]; [|done].
  destruct (from_encoded_str v) eqn:Hv; [done|].
  intros [= <-]. do 4 right. split_and!; [done..|]. by exists v.
Qed.

(** The two modes on the same data.  Whenever STORE-mode deserialization
    returns a command, NET mode returns the command with the same version
    maps and no origin; and when NET mode returns a command, STORE mode
    returns it with the decoded address as origin, returns it unchanged for
    want of an ["_origin"] entry, or fails in the codec. *)
Theorem from_json_data_dict_store_net (data : gmap string pyval) c :
  (from_json_data_dict from_encoded_str data STORE = Ok c →
   from_json_data_dict from_encoded_str data NET
   = Ok {| reads_version_map := reads_version_map c;
           writes_version_map := writes_version_map c;
           origin := None |})
  ∧ (from_json_data_dict from_encoded_str data NET = Ok c →
     match data !! "_origin" with
     | None => from_json_data_dict from_encoded_str data STORE = Ok c
     | Some v =>
         match from_encoded_str v with
         | Some a =>
             from_json_data_dict from_encoded_str data STORE
             = Ok {| reads_version_map := reads_version_map c;
                     writes_version_map := writes_version_map c;
                     origin := Some a |}
         | None =>
             from_json_data_dict from_encoded_str data STORE
             = Raise CodecError
         end
     end).
Proof.
  rewrite !from_json_data_dict_cases.
  destruct (data !! "_reads") as [[| | | | |r]|]; try by split.
  destruct (data !! "_writes") as [[| | | | |w]|]; try by split.
  destruct (data !! "_origin") as [v|].
  - destruct (from_encoded_str v) as [a|]; split; try done;
      by intros [= <-].
  - split; [|done]. by intros [= <-].
Qed.

(** ** More on serialization and round trips *)

(** The version maps of the output, read as mappings: an object id has an
    entry exactly when it occurs in the sequence, its entry is the version
    of its last occurrence, and every entry is a pair of the sequence. *)
Theorem serialized_version_maps (flag : JSONFlag) c :
  ∃ data mr mw,
    get_json_data_dict as_str add_object_type flag c = (Ok data, c)
    ∧ data !! "_reads" = Some (PyDict mr)
    ∧ data !! "_writes" = Some (PyDict mw)
    ∧ (∀ k, PyDict.get k mr = PyDict.get k (reverse (reads_version_map c)))
    ∧ (∀ k, PyDict.get k mw = PyDict.get k (reverse (writes_version_map c)))
    ∧ (∀ k, k ∈ mr.*1 ↔ k ∈ (reads_version_map c).*1)
    ∧ (∀ k, k ∈ mw.*1 ↔ k ∈ (writes_version_map c).*1)
    ∧ (∀ k v, (k, v) ∈ mr → (k, v) ∈ reads_version_map c)
    ∧ (∀ k v, (k, v) ∈ mw → (k, v) ∈ writes_version_map c).
Proof.
  destruct (get_json_data_dict_fields flag c) as (data & Hrun & Dr & Dw & _).
  exists data, (PyDict.dict (reads_version_map c)),
    (PyDict.dict (writes_version_map c)).
  split_and!; [done|done|done|..].
  - intros k. apply get_dict_reverse.
  - intros k. apply get_dict_reverse.
  - intros k. apply dict_keys.
  - intros k. apply dict_keys.
  - intros k v. apply elem_of_dict.
  - intros k v. apply elem_of_dict.
Qed.

(** The STORE round trip of any command, duplicates or not: it returns the
    command with each version map passed through [dict] and the origin kept;
    the command it returns is a fixed point, a second round trip returns it
    as it is. *)
Theorem store_roundtrip_normalizes c :
  let c1 := {| reads_version_map := PyDict.dict (reads_version_map c);
               writes_version_map := PyDict.dict (writes_version_map c);
               origin := origin c |} in
  ∃ data data1,
    get_json_data_dict as_str add_object_type STORE c = (Ok data, c)
    ∧ from_json_data_dict from_encoded_str data STORE = Ok c1
    ∧ get_json_data_dict as_str add_object_type STORE c1 = (Ok data1, c1)
    ∧ from_json_data_dict from_encoded_str data1 STORE = Ok c1.
Proof.
  intros c1.
  assert (∀ c', ∃ data,
            get_json_data_dict as_str add_object_type STORE c' = (Ok data, c')
            ∧ from_json_data_dict from_encoded_str data STORE
              = Ok {| reads_version_map := PyDict.dict (reads_version_map c');
                      writes_version_map := PyDict.dict (writes_version_map c');
                      origin := origin c' |}) as Hrt.
  { intros c'.
    destruct (get_json_data_dict_fields STORE c')
      as (data & Hrun & Dr & Dw & Do).
    exists data. split; [done|].
    rewrite (from_json_data_dict_maps _ _ _ _ Dr Dw), Do.
    destruct (origin c') as [a|]; simpl; [|done].
    by rewrite codec_roundtrip. }
  destruct (Hrt c) as (data & Hrun & Hback).
  destruct (Hrt c1) as (data1 & Hrun1 & Hback1).
  exists data, data1. split_and!; [done..|].
  rewrite Hback1. subst c1. simpl. by rewrite !dict_idempotent.
Qed.

(** The STORE round trip gives back a command equal to the one serialized
    if and only if no object id occurs twice in its reads and none occurs
    twice in its writes. *)
Theorem store_roundtrip_equal_iff c (data : gmap string pyval) c' :
  get_json_data_dict as_str add_object_type STORE c = (Ok data, c) →
  from_json_data_dict from_encoded_str data STORE = Ok c' →
  __eq__ c' c = true
  ↔ NoDup (reads_version_map c).*1 ∧ NoDup (writes_version_map c).*1.
Proof.
  intros Hrun Hback.
  destruct (get_json_data_dict_fields STORE c) as (d & Hrun' & Dr & Dw & Do).
  rewrite Hrun in Hrun'. injection Hrun' as <-.
  rewrite (from_json_data_dict_maps _ _ _ _ Dr Dw), Do in Hback.
  assert (c' = {| reads_version_map := PyDict.dict (reads_version_map c);
                  writes_version_map := PyDict.dict (writes_version_map c);
                  origin := origin c |}) as ->.
  { destruct (origin c) as [a|]; simpl in Hback.
    - rewrite codec_roundtrip in Hback. by injection Hback as <-.
    - by injection Hback as <-. }
  unfold __eq__. simpl.
  rewrite !andb_true_iff, !bool_decide_eq_true, !dict_fixed_iff.
  split; [by intros [[? ?] _]|by intros [? ?]].
Qed.

(** The NET round trip of a command without duplicate object ids returns
    the command without its origin, and so does reading the NET output in
    STORE mode; the result equals the command exactly when the command had
    no origin. *)
Theorem net_roundtrip_drops_origin c :
  NoDup (reads_version_map c).*1 →
  NoDup (writes_version_map c).*1 →
  ∃ data,
    get_json_data_dict as_str add_object_type NET c = (Ok data, c)
    ∧ from_json_data_dict from_encoded_str data NET
      = Ok (set_origin_field None c)
    ∧ from_json_data_dict from_encoded_str data STORE
      = Ok (set_origin_field None c)
    ∧ (__eq__ (set_origin_field None c) c = true ↔ origin c = None).
Proof.
  intros Hr Hw.
  destruct (get_json_data_dict_fields NET c) as (data & Hrun & Dr & Dw & Do).
  rewrite dict_distinct in Dr by done. rewrite dict_distinct in Dw by done.
  exists data. split_and!; [done|..].
  - by rewrite (from_json_data_dict_maps _ _ _ _ Dr Dw).
  - by rewrite (from_json_data_dict_maps _ _ _ _ Dr Dw), Do.
  - unfold __eq__. simpl.
    rewrite !andb_true_iff, !bool_decide_eq_true. split; [|done].
    by intros [_ ?].
Qed.

(** From data to a command and back.  When the version maps of the data
    are dictionaries and deserialization returns a command, serializing that
    command in the same mode gives back the two version maps of the data, and
    an ["_origin"] entry exactly when the mode is STORE and the data had
    one. *)
Theorem deserialize_then_serialize
    (data : gmap string pyval) (flag : JSONFlag) c (r w : vdict) :
  data !! "_reads" = Some (PyDict r) → NoDup r.*1 →
  data !! "_writes" = Some (PyDict w) → NoDup w.*1 →
  from_json_data_dict from_encoded_str data flag = Ok c →
  ∃ out,
    get_json_data_dict as_str add_object_type flag c = (Ok out, c)
    ∧ out !! "_reads" = data !! "_reads"
    ∧ out !! "_writes" = data !! "_writes"
    ∧ (is_Some (out !! "_origin")
       ↔ flag = STORE ∧ is_Some (data !! "_origin")).
Proof.
  intros Hr Hnr Hw Hnw Hc.
  rewrite (from_json_data_dict_maps _ _ _ _ Hr Hw) in Hc.
  destruct (get_json_data_dict_fields flag c) as (out & Hrun & Dr & Dw & Do).
  exists out. split; [done|].
  destruct flag.
  - injection Hc as <-. simpl in *.
    rewrite Dr, Dw, Do, Hr, Hw, !dict_distinct by done.
    split_and!; [done..|]. split; [by intros [? [=]]|by intros [[=] _]].
  - destruct (data !! "_origin") as [v|] eqn:Hv.
    + destruct (from_encoded_str v) as [a|]; [|done].
      injection Hc as <-. simpl in *.
      rewrite Dr, Dw, Do, Hr, Hw, !dict_distinct by done.
      split_and!; [done..|]. split; by eauto.
    + injection Hc as <-. simpl in *.
      rewrite Dr, Dw, Do, Hr, Hw, !dict_distinct by done.
      split_and!; [done..|]. split; [by intros [? [=]]|].
      by intros [_ [? [=]]].
Qed.

(** The dependency sets of a deserialized command are the versions bound
    in the version maps of the data. *)
Theorem deserialized_version_sets
    (data : gmap string pyval) (flag : JSONFlag) c (r w : vdict) :
  data !! "_reads" = Some (PyDict r) → NoDup r.*1 →
  data !! "_writes" = Some (PyDict w) → NoDup w.*1 →
  from_json_data_dict from_encoded_str data flag = Ok c →
  ∃ D N : gset Z,
    get_dependencies c = (Ok D, c)
    ∧ get_new_object_versions c = (Ok N, c)
    ∧ (∀ v, v ∈ D ↔ ∃ k, PyDict.get k r = Some v)
    ∧ (∀ v, v ∈ N ↔ ∃ k, PyDict.get k w = Some v).
Proof.
  intros Hr Hnr Hw Hnw Hc.
  assert (reads_version_map c = r ∧ writes_version_map c = w) as [Er Ew].
  { rewrite (from_json_data_dict_maps _ _ _ _ Hr Hw) in Hc.
    destruct flag, (data !! "_origin") as [v|];
      try destruct (from_encoded_str v); try done;
      by injection Hc as <-. }
  eexists _, _. split_and!; [reflexivity|reflexivity|..].
  - intros v. rewrite elem_of_versions, Er. split; intros [k Hk]; exists k.
    + by apply elem_get_distinct.
    + by apply get_Some_elem.
  - intros v. rewrite elem_of_versions, Ew. split; intros [k Hk]; exists k.
    + by apply elem_get_distinct.
    + by apply get_Some_elem.
Qed.


End protocol_command_facts.

(** ** Serialization on the store *)

Section object_store_facts.

Context {LibraAddress : Type}.
Variable as_str : LibraAddress → string.
Variable add_object_type : gmap string pyval → gmap string pyval.
Variable as_str_call :
  LibraAddress → M (gmap nat (obj (LibraAddress := LibraAddress))) string.
Variable add_object_type_call :
  nat → nat → M (gmap nat (obj (LibraAddress := LibraAddress))) unit.

Implicit Types h : gmap nat (obj (LibraAddress := LibraAddress)).
Implicit Types c : ProtocolCommand (LibraAddress := LibraAddress).

(** What the collaborators are relied on for: encoding an address reads and
    writes nothing, and the hook of the class writes to the dictionary it
    is given and to nothing else. *)
Hypothesis as_str_call_pure :
  ∀ a h, as_str_call a h = (Ok (as_str a), h).
Hypothesis add_object_type_call_in_place :
  ∀ self d h m,
    h !! d = Some (ODict m) →
    add_object_type_call self d h
    = (Ok tt, <[d := ODict (add_object_type m)]> h).

Lemma bind_Ok {S A B} (m : M S A) (f : A → M S B) s a s' :
  m s = (Ok a, s') → (m ≫= f) s = f a s'.
Proof. intros Hm. unfold mbind, M_bind. by rewrite Hm. Qed.

(** One call: the dictionary is a new object, holding what the method
    returns on the command by value, and no other object is written. *)
Lemma get_json_data_dict_at_run h self c flag :
  h !! self = Some (OCommand c) →
  ∃ m,
    get_json_data_dict_at as_str_call add_object_type_call self flag h
    = (Ok (fresh (dom h)), <[fresh (dom h) := ODict m]> h)
    ∧ outcome (get_json_data_dict as_str add_object_type flag) c = Ok m.
Proof.
  intros Hself. eexists. split; [|reflexivity].
  unfold get_json_data_dict_at.
  rewrite (bind_Ok _ _ h c h) by (unfold load_command; by rewrite Hself).
  erewrite bind_Ok by reflexivity.
  set (d := fresh (dom h)).
  destruct flag; simpl.
  - erewrite bind_Ok by reflexivity.
    erewrite bind_Ok
      by (apply add_object_type_call_in_place, lookup_insert_eq).
    by rewrite insert_insert_eq.
  - destruct (origin c) as [a|]; simpl.
    + erewrite bind_Ok; cycle 1.
      { erewrite bind_Ok by apply as_str_call_pure.
        unfold update_at. rewrite lookup_insert_eq. reflexivity. }
      rewrite insert_insert_eq.
      erewrite bind_Ok
        by (apply add_object_type_call_in_place, lookup_insert_eq).
      by rewrite insert_insert_eq.
    + erewrite bind_Ok by reflexivity.
      erewrite bind_Ok
        by (apply add_object_type_call_in_place, lookup_insert_eq).
      by rewrite insert_insert_eq.
Qed.

(** C8: [get_json_data_dict] writes to no object that existed before the
    call: the dictionary it returns is a new object, and the command, like
    every other object, is as it was.  A second call returns another new
    dictionary with the same entries and leaves the first one alone. *)
Theorem get_json_data_dict_no_side_effects h (self : nat) c (flag : JSONFlag) :
  h !! self = Some (OCommand c) →
  ∃ d1 d2 h1 h2 m,
    get_json_data_dict_at as_str_call add_object_type_call self flag h
    = (Ok d1, h1)
    ∧ get_json_data_dict_at as_str_call add_object_type_call self flag h1
      = (Ok d2, h2)
    ∧ h !! d1 = None ∧ h1 !! d2 = None
    ∧ (∀ l, l ≠ d1 → h1 !! l = h !! l)
    ∧ (∀ l, l ≠ d2 → h2 !! l = h1 !! l)
    ∧ h1 !! self = Some (OCommand c) ∧ h2 !! self = Some (OCommand c)
    ∧ h1 !! d1 = Some (ODict m) ∧ h2 !! d1 = Some (ODict m)
    ∧ h2 !! d2 = Some (ODict m)
    ∧ outcome (get_json_data_dict as_str add_object_type flag) c = Ok m.
Proof.
  intros Hself.
  destruct (get_json_data_dict_at_run h self c flag Hself) as (m & Hrun1 & Hm).
  set (d1 := fresh (dom h)) in *. set (h1 := <[d1 := ODict m]> h) in *.
  assert (h !! d1 = None) as Hd1.
  { apply not_elem_of_dom. apply is_fresh. }
  assert (self ≠ d1) as Hne1 by (intros ->; congruence).
  assert (h1 !! self = Some (OCommand c)) as Hself1.
  { subst h1. by rewrite lookup_insert_ne. }
  destruct (get_json_data_dict_at_run h1 self c flag Hself1)
    as (m' & Hrun2 & Hm').
  assert (m' = m) as -> by congruence.
  set (d2 := fresh (dom h1)) in *. set (h2 := <[d2 := ODict m]> h1) in *.
  assert (h1 !! d2 = None) as Hd2.
  { apply not_elem_of_dom. apply is_fresh. }
  assert (h1 !! d1 = Some (ODict m)) as Hm1.
  { subst h1. apply lookup_insert_eq. }
  assert (d1 ≠ d2) as Hne12 by (intros Heq; rewrite Heq in Hm1; congruence).
  assert (self ≠ d2) as Hne2 by (intros ->; congruence).
  exists d1, d2, h1, h2, m. split_and!; try done.
  - intros l Hl. subst h1. by rewrite lookup_insert_ne.
  - intros l Hl. subst h2. by rewrite lookup_insert_ne.
  - subst h2. by rewrite lookup_insert_ne.
  - subst h2. by rewrite lookup_insert_ne.
  - subst h2. apply lookup_insert_eq.
Qed.

End object_store_facts.

(** ** The model on concrete commands *)

Lemma party_codec_roundtrip a :
  party_from_encoded_str (PyStr (party_as_str a)) = Some a.
Proof. by destruct a. Qed.

Lemma tag_object_type_keeps : keeps_base_fields tag_object_type.
Proof.
  intros d k Hk. unfold tag_object_type.
  rewrite !elem_of_cons, elem_of_nil in Hk.
  destruct Hk as [->|[->|[->|[]]]]; by rewrite lookup_insert_ne.
Qed.

Example serialize_store_unset :
  example_serialize STORE (example_cmd None)
  = (Ok {[ "_reads" := PyDict [("obj1", 5)];
           "_writes" := PyDict [("obj2", 1)];
           "_ObjectType" := PyStr "ProtocolCommand" ]}, example_cmd None).
Proof. by vm_compute. Qed.

Example serialize_store_set :
  example_serialize STORE (example_cmd (Some PartyA))
  = (Ok {[ "_reads" := PyDict [("obj1", 5)];
           "_writes" := PyDict [("obj2", 1)];
           "_origin" := PyStr "A";
           "_ObjectType" := PyStr "ProtocolCommand" ]}, example_cmd (Some PartyA)).
Proof. by vm_compute. Qed.

Example serialize_net_set :
  example_serialize NET (example_cmd (Some PartyA)) = example_serialize NET (example_cmd None)
  ∨ outcome (example_serialize NET) (example_cmd (Some PartyA))
    = outcome (example_serialize NET) (example_cmd None).
Proof. right. by vm_compute. Qed.

Example deserialize_store :
  example_deserialize {[ "_reads" := PyDict [("obj1", 5)];
                 "_writes" := PyDict [("obj2", 1)];
                 "_origin" := PyStr "A" ]} STORE
  = Ok (example_cmd (Some PartyA)).
Proof. by vm_compute. Qed.

Example deserialize_net :
  example_deserialize {[ "_reads" := PyDict [("obj1", 5)];
                 "_writes" := PyDict [("obj2", 1)];
                 "_origin" := PyStr "A" ]} NET
  = Ok (example_cmd None).
Proof. by vm_compute. Qed.

Example deserialize_reads_not_a_dict :
  example_deserialize {[ "_reads" := PyList [PyStr "obj1"; PyInt 5];
                 "_writes" := PyDict [] ]} NET
  = Raise (AttributeError "items").
Proof. by vm_compute. Qed.

Example deserialize_no_writes :
  example_deserialize {[ "_reads" := PyDict [] ]} STORE = Raise (KeyError "_writes").
Proof. by vm_compute. Qed.

Example dict_duplicate_key :
  PyDict.dict [("obj1", 5); ("obj3", 2); ("obj1", 6)]
  = [("obj1", 6); ("obj3", 2)].
Proof. by vm_compute. Qed.

Example set_origin_twice :
  (set_origin (Some PartyA);; set_origin (Some PartyB)) (example_cmd None)
  = (Raise AssertionError, example_cmd (Some PartyA)).
Proof. by vm_compute. Qed.

(** ** The theorems at concrete commands *)

Lemma set_origin_idempotent_then_conflict_witness :
  let c1 := after (set_origin (Some PartyA)) (example_cmd None) in
  origin c1 = Some PartyA
  ∧ set_origin (Some PartyA) c1 = (Ok tt, c1)
  ∧ set_origin (Some PartyB) c1 = (Raise AssertionError, c1)
  ∧ raises_kind (set_origin (Some PartyB)) c1 StateConflict
  ∧ origin (after (set_origin (Some PartyB)) c1) = Some PartyA.
Proof.
  apply (set_origin_idempotent_then_conflict (example_cmd None) PartyA PartyB).
  - discriminate.
  - reflexivity.
Defined.

Lemma set_origin_None_unchecked_witness :
  set_origin None (example_cmd None) = (Ok tt, example_cmd None)
  ∧ origin (after (set_origin None) (example_cmd None)) = None
  ∧ set_origin (Some PartyB) (after (set_origin None) (example_cmd None))
    = (Ok tt, set_origin_field (Some PartyB) (example_cmd None))
  ∧ origin (after (set_origin (Some PartyB))
              (after (set_origin None) (example_cmd None)))
    = Some PartyB.
Proof.
  apply (set_origin_None_unchecked (example_cmd None) PartyB). reflexivity.
Defined.

(** C6, as stated, at the command above and version 7, which is not among
    the versions the command creates: the call does not fail as an unknown
    version. *)
Lemma get_object_undeclared_version_not_unknown :
  ∃ N : gset Z,
    outcome get_new_object_versions (example_cmd None) = Ok N
    ∧ (7 ∉ N)
    ∧ outcome (get_object unit 7 []) (example_cmd None)
      = Raise NotImplementedError
    ∧ ¬ raises_kind (get_object unit 7 []) (example_cmd None) UnknownVersion.
Proof.
  eexists. split_and!; [reflexivity| |reflexivity|].
  - intros Hin. apply elem_of_list_to_set in Hin. simpl in Hin.
    apply list_elem_of_singleton in Hin. discriminate.
  - intros (e & He & Hk). unfold outcome in He. simpl in He.
    injection He as <-. discriminate.
Qed.

Lemma store_roundtrip_witness :
  ∃ data c',
    example_serialize STORE (example_cmd (Some PartyA))
    = (Ok data, example_cmd (Some PartyA))
    ∧ example_deserialize data STORE = Ok c'
    ∧ __eq__ c' (example_cmd (Some PartyA)) = true
    ∧ c' = example_cmd (Some PartyA).
Proof.
  apply (store_roundtrip party_as_str party_from_encoded_str tag_object_type
           party_codec_roundtrip tag_object_type_keeps
           (example_cmd (Some PartyA))).
  - simpl. apply NoDup_singleton.
  - simpl. apply NoDup_singleton.
Defined.

Lemma origin_only_in_store_witness :
  ∃ data dnet dstore,
    example_serialize STORE (example_cmd (Some PartyA))
    = (Ok data, example_cmd (Some PartyA))
    ∧ (is_Some (data !! "_origin")
       ↔ STORE = STORE ∧ is_Some (origin (example_cmd (Some PartyA))))
    ∧ example_serialize NET (example_cmd (Some PartyA))
      = (Ok dnet, example_cmd (Some PartyA))
    ∧ example_serialize STORE (example_cmd (Some PartyA))
      = (Ok dstore, example_cmd (Some PartyA))
    ∧ ∀ a, origin (example_cmd (Some PartyA)) = Some a →
           dnet !! "_origin" = None
           ∧ dstore !! "_origin" = Some (PyStr (party_as_str a)).
Proof.
  exact (origin_only_in_store party_as_str tag_object_type
           tag_object_type_keeps (example_cmd (Some PartyA)) STORE).
Defined.

Lemma from_json_data_dict_malformed_witness :
  fails_kind
    (example_deserialize
       {[ "_reads" := PyDict [("obj1", 5)];
          "_writes" := PyDict [("obj2", 1)];
          "_origin" := PyStr "not an address" ]} STORE)
    MalformedData
  ∧ ∀ c,
      example_deserialize
        {[ "_reads" := PyDict [("obj1", 5)];
           "_writes" := PyDict [("obj2", 1)];
           "_origin" := PyStr "not an address" ]} STORE ≠ Ok c.
Proof.
  apply (from_json_data_dict_malformed party_from_encoded_str).
  right. right. split; [reflexivity|].
  exists (PyStr "not an address"). split; reflexivity.
Defined.

Lemma net_never_reads_origin_witness :
  example_deserialize
    {[ "_reads" := PyDict [("obj1", 5)];
       "_writes" := PyDict [("obj2", 1)];
       "_origin" := PyStr "A" ]} NET
  = Ok (example_cmd None).
Proof.
  apply (net_never_reads_origin party_as_str party_from_encoded_str
           tag_object_type tag_object_type_keeps
           {[ "_reads" := PyDict [("obj1", 5)];
              "_writes" := PyDict [("obj2", 1)];
              "_origin" := PyStr "A" ]} (PyStr "A")); reflexivity.
Defined.

Lemma duplicate_object_id_last_wins_witness :
  ∃ data mr mw,
    example_serialize NET example_cmd_dup = (Ok data, example_cmd_dup)
    ∧ data !! "_reads" = Some (PyDict mr)
    ∧ data !! "_writes" = Some (PyDict mw)
    ∧ NoDup mr.*1 ∧ NoDup mw.*1
    ∧ (reads_version_map example_cmd_dup
       = [] ++ ("obj1", 5) :: [("obj3", 2)] ++ ("obj1", 6) :: [] →
       PyDict.get "obj1" mr = Some 6)
    ∧ (writes_version_map example_cmd_dup
       = [] ++ ("obj1", 5) :: [("obj3", 2)] ++ ("obj1", 6) :: [] →
       PyDict.get "obj1" mw = Some 6).
Proof.
  apply (duplicate_object_id_last_wins party_as_str tag_object_type
           tag_object_type_keeps example_cmd_dup NET
           [] [("obj3", 2)] [] "obj1" 5 6).
  simpl. apply not_elem_of_nil.
Defined.

Lemma origin_is_final_witness :
  foldl (λ c' o, after (set_origin o) c') (example_cmd (Some PartyA))
    [Some PartyB; None; Some PartyA; Some PartyB]
  = example_cmd (Some PartyA).
Proof.
  apply (origin_is_final PartyA (example_cmd (Some PartyA))). reflexivity.
Defined.

Lemma from_json_data_dict_exception_witness :
  (KeyError "_writes" = KeyError "_reads"
   ∧ ({[ "_reads" := PyDict [] ]} : gmap string pyval) !! "_reads" = None)
  ∨ (KeyError "_writes" = AttributeError "items"
     ∧ is_Some (({[ "_reads" := PyDict [] ]} : gmap string pyval) !! "_reads")
     ∧ PyDict.has_mapping {[ "_reads" := PyDict [] ]} "_reads" = false)
  ∨ (KeyError "_writes" = KeyError "_writes"
     ∧ PyDict.has_mapping {[ "_reads" := PyDict [] ]} "_reads" = true
     ∧ ({[ "_reads" := PyDict [] ]} : gmap string pyval) !! "_writes" = None)
  ∨ (KeyError "_writes" = AttributeError "items"
     ∧ PyDict.has_mapping {[ "_reads" := PyDict [] ]} "_reads" = true
     ∧ is_Some (({[ "_reads" := PyDict [] ]} : gmap string pyval) !! "_writes")
     ∧ PyDict.has_mapping {[ "_reads" := PyDict [] ]} "_writes" = false)
  ∨ (KeyError "_writes" = CodecError
     ∧ PyDict.has_mapping {[ "_reads" := PyDict [] ]} "_reads" = true
     ∧ PyDict.has_mapping {[ "_reads" := PyDict [] ]} "_writes" = true
     ∧ STORE = STORE
     ∧ ∃ v, ({[ "_reads" := PyDict [] ]} : gmap string pyval) !! "_origin"
            = Some v
            ∧ party_from_encoded_str v = None).
Proof.
  apply (from_json_data_dict_exception party_from_encoded_str
           {[ "_reads" := PyDict [] ]} STORE (KeyError "_writes")).
  reflexivity.
Defined.

Lemma serialized_version_maps_witness :
  ∃ data mr mw,
    example_serialize NET example_cmd_dup = (Ok data, example_cmd_dup)
    ∧ data !! "_reads" = Some (PyDict mr)
    ∧ data !! "_writes" = Some (PyDict mw)
    ∧ (∀ k, PyDict.get k mr
            = PyDict.get k (reverse (reads_version_map example_cmd_dup)))
    ∧ (∀ k, PyDict.get k mw
            = PyDict.get k (reverse (writes_version_map example_cmd_dup)))
    ∧ (∀ k, k ∈ mr.*1 ↔ k ∈ (reads_version_map example_cmd_dup).*1)
    ∧ (∀ k, k ∈ mw.*1 ↔ k ∈ (writes_version_map example_cmd_dup).*1)
    ∧ (∀ k v, (k, v) ∈ mr → (k, v) ∈ reads_version_map example_cmd_dup)
    ∧ (∀ k v, (k, v) ∈ mw → (k, v) ∈ writes_version_map example_cmd_dup).
Proof.
  exact (serialized_version_maps party_as_str tag_object_type
           tag_object_type_keeps NET example_cmd_dup).
Defined.

Lemma store_roundtrip_normalizes_witness :
  ∃ data data1,
    example_serialize STORE example_cmd_dup = (Ok data, example_cmd_dup)
    ∧ example_deserialize data STORE = Ok example_cmd_dedup
    ∧ example_serialize STORE example_cmd_dedup = (Ok data1, example_cmd_dedup)
    ∧ example_deserialize data1 STORE = Ok example_cmd_dedup.
Proof.
  exact (store_roundtrip_normalizes party_as_str party_from_encoded_str
           tag_object_type party_codec_roundtrip tag_object_type_keeps
           example_cmd_dup).
Defined.

Lemma store_roundtrip_equal_iff_witness :
  __eq__ example_cmd_dedup example_cmd_dup = true
  ↔ NoDup (reads_version_map example_cmd_dup).*1
    ∧ NoDup (writes_version_map example_cmd_dup).*1.
Proof.
  apply (store_roundtrip_equal_iff party_as_str party_from_encoded_str
           tag_object_type party_codec_roundtrip tag_object_type_keeps
           example_cmd_dup example_data_dup example_cmd_dedup).
  - vm_compute. reflexivity.
  - vm_compute. reflexivity.
Defined.

Lemma net_roundtrip_drops_origin_witness :
  ∃ data,
    example_serialize NET (example_cmd (Some PartyA))
    = (Ok data, example_cmd (Some PartyA))
    ∧ example_deserialize data NET
      = Ok (set_origin_field None (example_cmd (Some PartyA)))
    ∧ example_deserialize data STORE
      = Ok (set_origin_field None (example_cmd (Some PartyA)))
    ∧ (__eq__ (set_origin_field None (example_cmd (Some PartyA)))
         (example_cmd (Some PartyA)) = true
       ↔ origin (example_cmd (Some PartyA)) = None).
Proof.
  apply (net_roundtrip_drops_origin party_as_str party_from_encoded_str
           tag_object_type tag_object_type_keeps (example_cmd (Some PartyA))).
  - simpl. apply NoDup_singleton.
  - simpl. apply NoDup_singleton.
Defined.

Lemma deserialize_then_serialize_witness :
  ∃ out,
    example_serialize STORE (example_cmd (Some PartyA))
    = (Ok out, example_cmd (Some PartyA))
    ∧ out !! "_reads" = example_data !! "_reads"
    ∧ out !! "_writes" = example_data !! "_writes"
    ∧ (is_Some (out !! "_origin")
       ↔ STORE = STORE ∧ is_Some (example_data !! "_origin")).
Proof.
  apply (deserialize_then_serialize party_as_str party_from_encoded_str
           tag_object_type tag_object_type_keeps
           example_data STORE (example_cmd (Some PartyA))
           [("obj1", 5)] [("obj2", 1)]).
  - reflexivity.
  - simpl. apply NoDup_singleton.
  - reflexivity.
  - simpl. apply NoDup_singleton.
  - vm_compute. reflexivity.
Defined.

Lemma deserialized_version_sets_witness :
  ∃ D N : gset Z,
    get_dependencies (example_cmd (Some PartyA))
    = (Ok D, example_cmd (Some PartyA))
    ∧ get_new_object_versions (example_cmd (Some PartyA))
      = (Ok N, example_cmd (Some PartyA))
    ∧ (∀ v, v ∈ D ↔ ∃ k, PyDict.get k [("obj1", 5)] = Some v)
    ∧ (∀ v, v ∈ N ↔ ∃ k, PyDict.get k [("obj2", 1)] = Some v).
Proof.
  apply (deserialized_version_sets party_from_encoded_str
           example_data STORE (example_cmd (Some PartyA))
           [("obj1", 5)] [("obj2", 1)]).
  - reflexivity.
  - simpl. apply NoDup_singleton.
  - reflexivity.
  - simpl. apply NoDup_singleton.
  - vm_compute. reflexivity.
Defined.


Lemma tag_object_type_call_in_place (self d : nat) h m :
  h !! d = Some (ODict m) →
  tag_object_type_call self d h = (Ok tt, <[d := ODict (tag_object_type m)]> h).
Proof. intros Hd. unfold tag_object_type_call. by rewrite Hd. Qed.

Lemma get_json_data_dict_no_side_effects_witness :
  ∃ d1 d2 h1 h2 m,
    get_json_data_dict_at party_as_str_call tag_object_type_call 0 STORE
      example_store = (Ok d1, h1)
    ∧ get_json_data_dict_at party_as_str_call tag_object_type_call 0 STORE h1
      = (Ok d2, h2)
    ∧ example_store !! d1 = None ∧ h1 !! d2 = None
    ∧ (∀ l, l ≠ d1 → h1 !! l = example_store !! l)
    ∧ (∀ l, l ≠ d2 → h2 !! l = h1 !! l)
    ∧ h1 !! 0%nat = Some (OCommand (example_cmd (Some PartyA)))
    ∧ h2 !! 0%nat = Some (OCommand (example_cmd (Some PartyA)))
    ∧ h1 !! d1 = Some (ODict m) ∧ h2 !! d1 = Some (ODict m)
    ∧ h2 !! d2 = Some (ODict m)
    ∧ outcome (example_serialize STORE) (example_cmd (Some PartyA)) = Ok m.
Proof.
  apply (get_json_data_dict_no_side_effects party_as_str tag_object_type
           party_as_str_call tag_object_type_call).
  - intros a h. reflexivity.
  - intros self d h m. apply tag_object_type_call_in_place.
  - reflexivity.
Defined.

(** The same call, run: the new dictionary is at reference 2, and the
    objects at 0 and 1 are the ones that were there. *)
Example get_json_data_dict_at_example :
  get_json_data_dict_at party_as_str_call tag_object_type_call 0 STORE
    example_store
  = (Ok 2%nat,
     <[ 2%nat := ODict {[ "_reads" := PyDict [("obj1", 5)];
                          "_writes" := PyDict [("obj2", 1)];
                          "_origin" := PyStr "A";
                          "_ObjectType" := PyStr "ProtocolCommand" ]} ]>
       example_store).
Proof. by vm_compute. Qed.
